(** * Built-in expression functions of the workflow-expression interpreter

    A shallow embedding of [expr_funcs.go] (package [expr]): the function
    registry [functions] and the five built-ins [contains], [startswith],
    [endswith], [join] and [fromjson].

    Go strings are byte sequences, so they are Rocq [string]s.  A Go function
    that may panic returns an [outcome]: either a value or the panic
    message. *)

From Stdlib Require Import Bool Arith ZArith Lia List Permutation.
From Stdlib Require Import Ascii String DecimalString.
Import ListNotations.

Local Open Scope list_scope.
Local Open Scope string_scope.

(** ** The part of Go's [strings] package used by the built-ins *)

Module GoStrings.

(** [strings.HasPrefix]:
    [len(s) >= len(prefix) && s[:len(prefix)] == prefix]. *)
Definition HasPrefix (s prefix : string) : bool :=
  (String.length prefix <=? String.length s)%nat
  && (substring 0 (String.length prefix) s =? prefix).

(** [strings.HasSuffix]:
    [len(s) >= len(suffix) && s[len(s)-len(suffix):] == suffix]. *)
Definition HasSuffix (s suffix : string) : bool :=
  (String.length suffix <=? String.length s)%nat
  && (substring (String.length s - String.length suffix)
                (String.length suffix) s =? suffix).

(** [strings.Index]: the byte offset of the first occurrence of [substr] in
    [s], or [-1].  [IndexFrom i] scans a tail of the string that starts at
    offset [i]. *)
Fixpoint IndexFrom (i : Z) (s substr : string) : Z :=
  if HasPrefix s substr then i
  else match s with
       | EmptyString => (-1)%Z
       | String _ s' => IndexFrom (i + 1) s' substr
       end.

Definition Index (s substr : string) : Z := IndexFrom 0 s substr.

(** [strings.Contains]: [Index(s, substr) >= 0]. *)
Definition Contains (s substr : string) : bool :=
  (0 <=? Index s substr)%Z.

(** [strings.Join]: nothing for no element, the element itself for one,
    otherwise the first element followed by [sep] and the next element, for
    every further element. *)
Fixpoint JoinRest (b : string) (elems : list string) (sep : string) : string :=
  match elems with
  | [] => b
  | s :: elems' => JoinRest (b ++ sep ++ s) elems' sep
  end.

Definition Join (elems : list string) (sep : string) : string :=
  match elems with
  | [] => ""
  | [e] => e
  | e :: rest => JoinRest e rest sep
  end.

(** The ASCII branch of [strings.ToLower]: a byte in ['A'..'Z'] is moved by
    ['a' - 'A'], every other byte is kept. *)
Definition lowerByte (c : ascii) : ascii :=
  let n := nat_of_ascii c in
  if ((65 <=? n) && (n <=? 90))%nat then ascii_of_nat (n + 32) else c.

Fixpoint ToLowerASCII (s : string) : string :=
  match s with
  | EmptyString => EmptyString
  | String c s' => String (lowerByte c) (ToLowerASCII s')
  end.

End GoStrings.

(** ** Panics *)

(** A call of a built-in either returns or panics; a panic carries the text
    of the value it was raised with. *)
Inductive outcome (A : Type) : Type :=
| Return (a : A)
| Panic (msg : string).

Arguments Return {A} a.
Arguments Panic {A} msg.

Definition bind {A B : Type} (c : outcome A) (k : A -> outcome B) : outcome B :=
  match c with
  | Return a => k a
  | Panic msg => Panic msg
  end.

Notation "x <- c ;; k" := (bind c (fun x => k))
  (at level 61, c at next level, right associativity).

Definition panics {A : Type} (c : outcome A) : Prop :=
  exists msg, c = Panic msg.

Definition decimal (n : nat) : string :=
  NilZero.string_of_uint (Nat.to_uint n).

(** [s[i]] on a slice: the element, or the run-time panic of an index out of
    range. *)
Definition index {A : Type} (s : list A) (i : nat) : outcome A :=
  match nth_error s i with
  | Some a => Return a
  | None =>
      Panic ("runtime error: index out of range [" ++ decimal i
             ++ "] with length " ++ decimal (List.length s))
  end.

(** The text of the run-time panic of [s[i]] when [i] is out of the range of
    a slice of length [n]. *)
Definition outOfRange (i n : nat) : string :=
  "runtime error: index out of range [" ++ decimal i
  ++ "] with length " ++ decimal n.

(** ** Values *)

(** The type tag of a value: the dynamic type of an [actionlint.ExprType].
    The built-ins only test which of these a tag is (the element and property
    types inside [ArrayType] and [ObjectType] are never read, and every tag
    built here is the zero value). *)
Inductive ExprType : Type :=
| AnyType | NullType | NumberType | BoolType | StringType
| ObjectType | ArrayType.

Section Values.

(** Go's [float64].  No built-in looks inside a number: numbers are only
    handed to the coercions. *)
Context {float64 : Type}.

(** The payload of a value, an [interface{}] holding what [encoding/json]
    decodes into: [nil], [bool], [float64], [string], [[]interface{}] or
    [map[string]interface{}] (its entries listed). *)
#[local] Unset Elimination Schemes.
Inductive raw : Type :=
| RNil
| RBool (b : bool)
| RNum (f : float64)
| RStr (s : string)
| RArr (elems : list raw)
| RObj (entries : list (string * raw)).
#[local] Set Elimination Schemes.

(** [EvaluationResult{Value, Type}]. *)
Record EvaluationResult : Type := mkResult {
  Value : raw;
  Typ : ExprType
}.

(** Modelled from the spec: the method [Primitive] of [EvaluationResult] is
    declared outside this file.  A value is primitive iff its type is Null,
    Bool, Number or String. *)
Definition Primitive (e : EvaluationResult) : bool :=
  match Typ e with
  | NullType | BoolType | NumberType | StringType => true
  | AnyType | ObjectType | ArrayType => false
  end.

(** [&EvaluationResult{b, &actionlint.BoolType{}}]. *)
Definition boolResult (b : bool) : EvaluationResult :=
  mkResult (RBool b) BoolType.

(** The dynamic type of a payload as the run time prints it in a failed type
    assertion, and as [%T] prints it. *)
Definition goTypeName (v : raw) : string :=
  match v with
  | RNil => "nil"
  | RBool _ => "bool"
  | RNum _ => "float64"
  | RStr _ => "string"
  | RArr _ => "[]interface {}"
  | RObj _ => "map[string]interface {}"
  end.

Definition fmtT (v : raw) : string :=
  match v with
  | RNil => "<nil>"
  | _ => goTypeName v
  end.

(** [v.([]interface{})]: the elements, or the panic of a failed type
    assertion. *)
Definition assertSlice (v : raw) : outcome (list raw) :=
  match v with
  | RArr elems => Return elems
  | _ => Panic ("interface conversion: interface {} is " ++ goTypeName v
                ++ ", not []interface {}")
  end.

End Values.

Arguments raw : clear implicits.
Arguments EvaluationResult : clear implicits.

(** ** What the built-ins call and this file does not define *)

(** The coercion methods of [EvaluationResult] and [getExprType] are declared
    elsewhere in the package; the built-ins are stated over any
    implementation of them.  [CoerceSlice] answers [None] for Go's [nil]. *)
Class Coercions (float64 : Type) : Type := {
  CoerceString : EvaluationResult float64 -> string;
  CoerceSlice : EvaluationResult float64 -> option (list (EvaluationResult float64));
  Equals : EvaluationResult float64 -> EvaluationResult float64 -> bool;
  getExprType : raw float64 -> ExprType
}.

(** Two functions of Go's standard library: [strings.ToLower], and
    [json.Unmarshal] into an [interface{}], which answers the decoded value
    or the text of the decoding error. *)
Class GoLibrary (float64 : Type) : Type := {
  strings_ToLower : string -> string;
  json_Unmarshal : string -> raw float64 + string
}.

(** ** The built-ins *)

Section Builtins.

Context {float64 : Type} `{Coercions float64} `{GoLibrary float64}.

#[local] Abbreviation Val := (EvaluationResult float64).

(** [type funcDef struct { argsCount int; call func(...) }]. *)
Record funcDef : Type := mkFuncDef {
  argsCount : Z;
  call : list Val -> outcome Val
}.

(** The [for _, v := range s] loop of [contains]: it returns at the first
    element that [right] equals. *)
Fixpoint containsLoop (right : Val) (s : list Val) : Val :=
  match s with
  | [] => boolResult false
  | v :: s' => if Equals right v then boolResult true else containsLoop right s'
  end.

Definition contains (args : list Val) : outcome Val :=
  if negb (List.length args =? 2)%nat
  then Panic "contains() requires exactly 2 arguments"
  else
    left <- index args 0 ;;
    right <- index args 1 ;;
    if Primitive left then
      if negb (Primitive right) then Return (boolResult false)
      else
        let ls := CoerceString left in
        let rs := CoerceString right in
        Return (mkResult (RBool (GoStrings.Contains ls rs)) BoolType)
    else
      match Typ left with
      | ObjectType => Return (boolResult false)
      | ArrayType =>
          if negb (Primitive right) then Return (boolResult false)
          else match CoerceSlice left with
               | None => Return (boolResult false)
               | Some s => Return (containsLoop right s)
               end
      | _ => Return (boolResult false)
      end.

Definition fromjson (args : list Val) : outcome Val :=
  input <- index args 0 ;;
  let inputStr := CoerceString input in
  match json_Unmarshal inputStr with
  | inr err =>
      Panic ("unable to unmarshal `" ++ inputStr ++ "` fromjson: " ++ err)
  | inl v =>
      match v with
      | RArr _ => Return (mkResult v ArrayType)
      | RObj _ => Return (mkResult v ObjectType)
      | RStr _ => Return (mkResult v StringType)
      | RNum _ => Return (mkResult v NumberType)
      | RBool _ => Return (mkResult v BoolType)
      | RNil => Panic ("unknown type " ++ fmtT v ++ " in fromjson")
      end
  end.

(** [v[i] = x] on a slice (never out of range in [join], whose [v] is as long
    as the slice it ranges over). *)
Fixpoint store (v : list string) (i : nat) (x : string) : list string :=
  match v, i with
  | [], _ => []
  | _ :: v', O => x :: v'
  | y :: v', S i' => y :: store v' i' x
  end.

(** The [for i, a := range ar] loop of [join], from index [i] on. *)
Fixpoint joinLoop (i : nat) (ar : list (raw float64)) (v : list string)
  : list string :=
  match ar with
  | [] => v
  | a :: ar' =>
      let ar := mkResult a (getExprType a) in
      joinLoop (S i) ar' (store v i (CoerceString ar))
  end.

Definition join (args : list Val) : outcome Val :=
  let separator := "," in
  a0 <- index args 0 ;;
  if Primitive a0 then Return a0
  else
    separator <- (if (1 <? List.length args)%nat
                  then a1 <- index args 1 ;; Return (CoerceString a1)
                  else Return separator) ;;
    ar <- assertSlice (Value a0) ;;
    let v := joinLoop 0 ar (repeat "" (List.length ar)) in
    Return (mkResult (RStr (GoStrings.Join v separator)) StringType).

Definition endswith (args : list Val) : outcome Val :=
  left <- index args 0 ;;
  if negb (Primitive left) then Return (boolResult false)
  else
    right <- index args 1 ;;
    if negb (Primitive left) then Return (boolResult false)
    else
      let ls := CoerceString left in
      let rs := CoerceString right in
      Return (mkResult
                (RBool (GoStrings.HasSuffix (strings_ToLower ls)
                                            (strings_ToLower rs)))
                BoolType).

Definition startswith (args : list Val) : outcome Val :=
  left <- index args 0 ;;
  if negb (Primitive left) then Return (boolResult false)
  else
    right <- index args 1 ;;
    if negb (Primitive right) then Return (boolResult false)
    else
      let ls := CoerceString left in
      let rs := CoerceString right in
      Return (mkResult
                (RBool (GoStrings.HasPrefix (strings_ToLower ls)
                                            (strings_ToLower rs)))
                BoolType).

(** [var functions map[string]funcDef], its entries in the order of the
    literal; the keys are distinct. *)
Definition functions : list (string * funcDef) :=
  [ ("contains", mkFuncDef 2 contains);
    ("startswith", mkFuncDef 2 startswith);
    ("endswith", mkFuncDef 2 endswith);
    ("join", mkFuncDef (-1) join);
    ("fromjson", mkFuncDef 1 fromjson) ].

(** [functions[name]]. *)
Fixpoint lookup (name : string) (m : list (string * funcDef)) : option funcDef :=
  match m with
  | [] => None
  | (k, d) :: m' => if k =? name then Some d else lookup name m'
  end.

(** Modelled from the spec: the evaluator that validates the argument count
    of a call is not in this file.  Its rule, also the comment of
    [argsCount]: a positive count has to be matched exactly, a negative
    count is the least number of arguments required.  The rule says nothing
    about a count of zero, for which no answer is given. *)
Definition arityAccepts (count : Z) (n : nat) : option bool :=
  if (0 <? count)%Z then Some (Z.of_nat n =? count)%Z
  else if (count <? 0)%Z then Some (Z.abs count <=? Z.of_nat n)%Z
  else None.

(** A call of [name] with [n] arguments passes the validation. *)
Definition accepted (name : string) (n : nat) : bool :=
  match lookup name functions with
  | Some d => match arityAccepts (argsCount d) n with
              | Some b => b
              | None => false
              end
  | None => false
  end.

End Builtins.

(** ** Test doubles *)

(** One implementation of what the built-ins call, to run them on concrete
    calls.  Its numbers are the integers, printed in decimal; a string
    coerces to itself, a boolean to [true] or [false], null to the empty
    string, an array to [Array] and an object to [Object].  The decoder knows
    the documents listed in [documents] and reports every other text as an
    error of its own. *)
Module Fixture.

Definition num : Type := Z.

Definition quote : string := String (ascii_of_nat 34) EmptyString.

Definition coerceString (e : EvaluationResult num) : string :=
  match Value e with
  | RNil => ""
  | RBool true => "true"
  | RBool false => "false"
  | RNum z => NilEmpty.string_of_int (Z.to_int z)
  | RStr s => s
  | RArr _ => "Array"
  | RObj _ => "Object"
  end.

Definition exprType (v : raw num) : ExprType :=
  match v with
  | RNil => NullType
  | RBool _ => BoolType
  | RNum _ => NumberType
  | RStr _ => StringType
  | RArr _ => ArrayType
  | RObj _ => ObjectType
  end.

Definition coerceSlice (e : EvaluationResult num)
  : option (list (EvaluationResult num)) :=
  match Typ e, Value e with
  | ArrayType, RArr elems =>
      Some (map (fun a => mkResult a (exprType a)) elems)
  | _, _ => None
  end.

Definition equals (a b : EvaluationResult num) : bool :=
  match Value a, Value b with
  | RNil, RNil => true
  | RBool x, RBool y => Bool.eqb x y
  | RNum x, RNum y => (x =? y)%Z
  | RStr x, RStr y => (x =? y)%string
  | _, _ => false
  end.

Definition documents : list (string * (raw num + string)) :=
  [ ("null", inl RNil);
    ("true", inl (RBool true));
    ("7", inl (RNum 7%Z));
    (quote ++ "hi" ++ quote, inl (RStr "hi"));
    ("[1,2,3]", inl (RArr [RNum 1%Z; RNum 2%Z; RNum 3%Z]));
    ("{}", inl (RObj []));
    ("not json", inr "invalid character 'o' in literal null (expecting 'u')") ].

Fixpoint decode (docs : list (string * (raw num + string))) (text : string)
  : raw num + string :=
  match docs with
  | [] => inr "document outside the fixture"
  | (d, r) :: docs' => if d =? text then r else decode docs' text
  end.

#[export] Instance coercions : Coercions num := {
  CoerceString := coerceString;
  CoerceSlice := coerceSlice;
  Equals := equals;
  getExprType := exprType
}.

#[export] Instance library : GoLibrary num := {
  strings_ToLower := GoStrings.ToLowerASCII;
  json_Unmarshal := decode documents
}.

(** Literals. *)
Definition str (s : string) : EvaluationResult num := mkResult (RStr s) StringType.
Definition number (z : Z) : EvaluationResult num := mkResult (RNum z) NumberType.
Definition array (elems : list (raw num)) : EvaluationResult num :=
  mkResult (RArr elems) ArrayType.
Definition object (entries : list (string * raw num)) : EvaluationResult num :=
  mkResult (RObj entries) ObjectType.

Definition null : EvaluationResult num := mkResult RNil NullType.

(** A value typed Array whose payload holds no sequence. *)
Definition hollowArray : EvaluationResult num := mkResult RNil ArrayType.

End Fixture.

(** * Properties *)

(** ** Strings *)

Lemma string_app_assoc (a b c : string) : (a ++ b) ++ c = a ++ b ++ c.
Proof.
  induction a as [|x a IH]; simpl; [reflexivity | now rewrite IH].
Qed.

Lemma string_app_length (a b : string) :
  String.length (a ++ b) = (String.length a + String.length b)%nat.
Proof.
  induction a as [|x a IH]; simpl; [reflexivity | now rewrite IH].
Qed.

Lemma string_app_empty_r (a : string) : a ++ "" = a.
Proof.
  induction a as [|x a IH]; simpl; [reflexivity | now rewrite IH].
Qed.

Lemma substring_prefix_app (p t : string) :
  substring 0 (String.length p) (p ++ t) = p.
Proof.
  induction p as [|c p IH]; simpl.
  - now destruct t.
  - now rewrite IH.
Qed.

Lemma substring_skip_app (t x : string) (n : nat) :
  substring (String.length t) n (t ++ x) = substring 0 n x.
Proof.
  induction t as [|c t IH]; simpl; auto.
Qed.

Lemma substring_whole (x : string) :
  substring 0 (String.length x) x = x.
Proof.
  induction x as [|c x IH]; simpl; [reflexivity | now rewrite IH].
Qed.

Lemma substring_split (n : nat) : forall s : string,
  (n <= String.length s)%nat ->
  s = substring 0 n s ++ substring n (String.length s - n) s.
Proof.
  induction n as [|n IH]; intros s Hn.
  - rewrite Nat.sub_0_r, substring_whole. now destruct s.
  - destruct s as [|c s]; simpl in *; [lia|].
    f_equal. apply IH. lia.
Qed.

(** [HasPrefix] decides "[s] starts with [p]". *)
Lemma HasPrefix_iff (s p : string) :
  GoStrings.HasPrefix s p = true <-> exists t, s = p ++ t.
Proof.
  unfold GoStrings.HasPrefix. rewrite andb_true_iff, Nat.leb_le, String.eqb_eq.
  split.
  - intros [Hlen Hsub].
    exists (substring (String.length p) (String.length s - String.length p) s).
    rewrite <- Hsub at 1. now apply substring_split.
  - intros [t ->]. split.
    + rewrite string_app_length. lia.
    + apply substring_prefix_app.
Qed.

(** [HasSuffix] decides "[s] ends with [x]". *)
Lemma HasSuffix_iff (s x : string) :
  GoStrings.HasSuffix s x = true <-> exists t, s = t ++ x.
Proof.
  unfold GoStrings.HasSuffix. rewrite andb_true_iff, Nat.leb_le, String.eqb_eq.
  split.
  - intros [Hlen Hsub].
    exists (substring 0 (String.length s - String.length x) s).
    pose proof (substring_split (String.length s - String.length x) s) as E.
    replace (String.length s - (String.length s - String.length x))%nat
      with (String.length x) in E by lia.
    rewrite Hsub in E. apply E. lia.
  - intros [t ->]. rewrite string_app_length. split; [lia|].
    replace (String.length t + String.length x - String.length x)%nat
      with (String.length t) by lia.
    now rewrite substring_skip_app, substring_whole.
Qed.

Lemma IndexFrom_found (s sub : string) : forall i : Z,
  (0 <= i)%Z ->
  (0 <= GoStrings.IndexFrom i s sub)%Z <-> exists pre post, s = pre ++ sub ++ post.
Proof.
  induction s as [|c s IH]; intros i Hi; simpl;
    destruct (GoStrings.HasPrefix _ sub) eqn:Hp.
  - apply HasPrefix_iff in Hp as [t Ht].
    split; [intros _; now exists "", t | intros _; lia].
  - split; [lia|]. intros (pre & post & E).
    destruct pre; [|discriminate]. simpl in E.
    assert (GoStrings.HasPrefix "" sub = true)
      by (apply HasPrefix_iff; now exists post).
    congruence.
  - apply HasPrefix_iff in Hp as [t Ht].
    split; [intros _; now exists "", t | intros _; lia].
  - rewrite (IH (i + 1)%Z) by lia. split.
    + intros (pre & post & ->). now exists (String c pre), post.
    + intros (pre & post & E). destruct pre as [|c' pre]; simpl in E.
      * assert (GoStrings.HasPrefix (String c s) sub = true)
          by (apply HasPrefix_iff; now exists post).
        congruence.
      * injection E as _ ->. now exists pre, post.
Qed.

(** [Contains] decides "[sub] is a substring of [s]". *)
Lemma Contains_iff (s sub : string) :
  GoStrings.Contains s sub = true <-> exists pre post, s = pre ++ sub ++ post.
Proof.
  unfold GoStrings.Contains, GoStrings.Index.
  rewrite Z.leb_le. apply IndexFrom_found. lia.
Qed.

Lemma JoinRest_concat (sep : string) (elems : list string) : forall b : string,
  GoStrings.JoinRest b elems sep = String.concat sep (b :: elems).
Proof.
  induction elems as [|e elems IH]; intros b; [reflexivity|].
  cbn [GoStrings.JoinRest]. rewrite IH.
  destruct elems as [|e' elems]; cbn [String.concat].
  - reflexivity.
  - now rewrite !string_app_assoc.
Qed.

(** [Join] puts the elements in order, [sep] between neighbours. *)
Lemma Join_concat (elems : list string) (sep : string) :
  GoStrings.Join elems sep = String.concat sep elems.
Proof.
  destruct elems as [|e [|e' rest]]; try reflexivity.
  unfold GoStrings.Join. apply JoinRest_concat.
Qed.

(** ** The control flow of the built-ins *)

Section Properties.

Context {float64 : Type} `{Coercions float64} `{GoLibrary float64}.

#[local] Abbreviation Val := (EvaluationResult float64).

Lemma index_0 (a : Val) (rest : list Val) : index (a :: rest) 0 = Return a.
Proof. reflexivity. Qed.

Lemma index_1 (a b : Val) (rest : list Val) :
  index (a :: b :: rest) 1 = Return b.
Proof. reflexivity. Qed.

Lemma store_at (done : list string) (old new : string) (rest : list string) :
  store (done ++ old :: rest)%list (List.length done) new
  = (done ++ new :: rest)%list.
Proof.
  induction done as [|d done IH]; simpl; [reflexivity | now rewrite IH].
Qed.

(** The loop of [join] fills the slots from [i] on with the coercions of the
    elements, in order. *)
Lemma joinLoop_fills (ar : list (raw float64)) : forall done : list string,
  joinLoop (List.length done) ar (done ++ repeat "" (List.length ar))%list
  = (done ++ map (fun a => CoerceString (mkResult a (getExprType a))) ar)%list.
Proof.
  induction ar as [|a ar IH]; intros done; [reflexivity|].
  cbn [joinLoop List.length repeat map].
  rewrite store_at.
  specialize (IH (done ++ [CoerceString (mkResult a (getExprType a))])%list).
  rewrite length_app, Nat.add_1_r, <- !app_assoc in IH. exact IH.
Qed.

Lemma joinLoop_map (ar : list (raw float64)) :
  joinLoop 0 ar (repeat "" (List.length ar))
  = map (fun a => CoerceString (mkResult a (getExprType a))) ar.
Proof. exact (joinLoop_fills ar []). Qed.

(** The loop of [contains] answers whether some element is equal to
    [right]. *)
Lemma containsLoop_existsb (right : Val) (s : list Val) :
  containsLoop right s = boolResult (existsb (Equals right) s).
Proof.
  induction s as [|v s IH]; simpl; [reflexivity|].
  destruct (Equals right v); [reflexivity | exact IH].
Qed.

(** An element equal to [right] exists iff there is a first one. *)
Lemma existsb_first (right : Val) (s : list Val) :
  existsb (Equals right) s = true <->
  exists pre v post,
    s = (pre ++ v :: post)%list
    /\ Forall (fun u => Equals right u = false) pre
    /\ Equals right v = true.
Proof.
  split.
  - induction s as [|u s IH]; simpl; [discriminate|].
    destruct (Equals right u) eqn:Eu.
    + intros _. exists [], u, s. auto.
    + intros Hs. destruct (IH Hs) as (pre & v & post & -> & Hpre & Hv).
      exists (u :: pre), v, post. auto.
  - intros (pre & v & post & -> & _ & Hv).
    rewrite existsb_app. simpl. rewrite Hv. apply orb_true_r.
Qed.

(** [contains] on two primitive operands compares the coerced strings as
    they are. *)
Lemma contains_primitive (search item : Val) :
  Primitive search = true -> Primitive item = true ->
  contains [search; item]
  = Return (boolResult (GoStrings.Contains (CoerceString search)
                                           (CoerceString item))).
Proof.
  intros Hs Hi. unfold contains. cbn. now rewrite Hs, Hi.
Qed.

(** [endswith] never looks at the type of its second operand. *)
Lemma endswith_left_primitive (a b : Val) :
  Primitive a = true ->
  endswith [a; b]
  = Return (boolResult (GoStrings.HasSuffix (strings_ToLower (CoerceString a))
                                            (strings_ToLower (CoerceString b)))).
Proof.
  intros Ha. unfold endswith. cbn. now rewrite Ha.
Qed.

(** So a second operand that is not primitive is not rejected: the answer is
    [true] as soon as the suffix test succeeds. *)
Lemma endswith_right_unchecked (a b : Val) :
  Primitive a = true -> Primitive b = false ->
  (exists t, strings_ToLower (CoerceString a)
             = t ++ strings_ToLower (CoerceString b)) ->
  endswith [a; b] = Return (boolResult true).
Proof.
  intros Ha _ Hsuf. rewrite (endswith_left_primitive a b Ha).
  apply HasSuffix_iff in Hsuf. now rewrite Hsuf.
Qed.

(** [join] reads its first two arguments only. *)
Lemma join_extra_args (a b : Val) (rest : list Val) :
  join (a :: b :: rest) = join [a; b].
Proof. reflexivity. Qed.

Lemma join_not_primitive (a : Val) (rest : list Val) (ar : list (raw float64)) :
  Primitive a = false -> Value a = RArr ar ->
  join (a :: rest)
  = Return (mkResult
              (RStr (String.concat
                       match rest with
                       | [] => ","
                       | sep :: _ => CoerceString sep
                       end
                       (map (fun x => CoerceString (mkResult x (getExprType x))) ar)))
              StringType).
Proof.
  intros Ha Hv. unfold join. rewrite index_0. cbn [bind]. rewrite Ha, Hv.
  destruct rest as [|sep rest]; cbn;
    now rewrite joinLoop_map, Join_concat.
Qed.

(** ** The claims *)

(** C9.  For all values [a] and [b], [startswith(a, b)] returns a Bool value;
    it is [false] whenever one of the operands is not primitive, and
    otherwise [true] iff the lowercase of [CoerceString(a)] starts with the
    lowercase of [CoerceString(b)]. *)
Theorem startswith_spec (a b : Val) :
  exists r : bool,
    startswith [a; b] = Return (boolResult r)
    /\ (r = true <->
        Primitive a = true /\ Primitive b = true
        /\ exists t, strings_ToLower (CoerceString a)
                     = strings_ToLower (CoerceString b) ++ t).
Proof.
  unfold startswith. cbn.
  destruct (Primitive a) eqn:Ha; cbn.
  - destruct (Primitive b) eqn:Hb; cbn.
    + eexists. split; [reflexivity|].
      rewrite HasPrefix_iff. tauto.
    + exists false. split; [reflexivity|].
      split; [discriminate | intros (_ & F & _); discriminate].
  - exists false. split; [reflexivity|].
    split; [discriminate | intros (F & _); discriminate].
Qed.

(** C4.  When [search] has type Array, [contains(search, item)] returns a
    Bool value, which is [true] iff [item] is primitive and the elements of
    the array, taken in order, reach a first element that [item] equals (via
    [Equals]); so it is [false] for an [item] that is not primitive and
    after all the elements were tried without a match. *)
Theorem contains_array (search item : Val) :
  Typ search = ArrayType ->
  exists r : bool,
    contains [search; item] = Return (boolResult r)
    /\ (r = true <->
        Primitive item = true
        /\ exists s pre v post,
             CoerceSlice search = Some s
             /\ s = (pre ++ v :: post)%list
             /\ Forall (fun u => Equals item u = false) pre
             /\ Equals item v = true).
Proof.
  intros Ht. unfold contains. cbn. unfold Primitive at 1. rewrite Ht.
  destruct (Primitive item) eqn:Hi; cbn.
  - destruct (CoerceSlice search) as [s|] eqn:Hs.
    + exists (existsb (Equals item) s).
      split; [now rewrite containsLoop_existsb|].
      rewrite existsb_first. split.
      * intros (pre & v & post & E & Hpre & Hv).
        split; [reflexivity|]. now exists s, pre, v, post.
      * intros (_ & s' & pre & v & post & E & E' & Hpre & Hv).
        injection E as <-. now exists pre, v, post.
    + exists false. split; [reflexivity|].
      split; [discriminate|].
      intros (_ & s & pre & v & post & F & _). discriminate.
  - exists false. split; [reflexivity|].
    split; [discriminate | intros (F & _); discriminate].
Qed.

(** C10.  When [search] has type Array and [CoerceSlice(search)] is absent,
    [contains(search, item)] returns the Bool value [false]; it does not
    fail. *)
Theorem contains_array_absent (search item : Val) :
  Typ search = ArrayType ->
  CoerceSlice search = None ->
  contains [search; item] = Return (boolResult false).
Proof.
  intros Ht Hs. unfold contains. cbn. unfold Primitive at 1. rewrite Ht.
  destruct (Primitive item); cbn; [now rewrite Hs | reflexivity].
Qed.

(** C6.  When its first argument [v] is primitive, [join] returns [v]
    itself, payload and type tag unchanged and nothing coerced, whatever
    arguments follow. *)
Theorem join_primitive_identity (v : Val) (rest : list Val) :
  Primitive v = true ->
  join (v :: rest) = Return v.
Proof.
  intros Hv. unfold join. rewrite index_0. cbn [bind]. now rewrite Hv.
Qed.

(** C7.  When its first argument has type Array and holds the elements [ar],
    [join] returns the String value made of the string coercions of the
    elements, each one typed by [getExprType], in the order of the array,
    separated by [","] when there is no second argument and by the string
    coercion of the second argument otherwise. *)
Theorem join_array (a : Val) (rest : list Val) (ar : list (raw float64)) :
  Typ a = ArrayType ->
  Value a = RArr ar ->
  join (a :: rest)
  = Return (mkResult
              (RStr (String.concat
                       match rest with
                       | [] => ","
                       | sep :: _ => CoerceString sep
                       end
                       (map (fun x => CoerceString (mkResult x (getExprType x))) ar)))
              StringType).
Proof.
  intros Ht Hv. apply join_not_primitive; [|exact Hv].
  unfold Primitive. now rewrite Ht.
Qed.

(** C8.  When the decoding of the string coercion of the input succeeds with
    the value [v], [fromjson] returns [v] as payload under the type tag of
    its shape: Array for an array, Object for an object, String for a
    string, Number for a number and Bool for a boolean. *)
Theorem fromjson_shapes (input : Val) (rest : list Val) (v : raw float64) :
  json_Unmarshal (CoerceString input) = inl v ->
  (forall elems, v = RArr elems ->
     fromjson (input :: rest) = Return (mkResult (RArr elems) ArrayType))
  /\ (forall entries, v = RObj entries ->
     fromjson (input :: rest) = Return (mkResult (RObj entries) ObjectType))
  /\ (forall s, v = RStr s ->
     fromjson (input :: rest) = Return (mkResult (RStr s) StringType))
  /\ (forall f, v = RNum f ->
     fromjson (input :: rest) = Return (mkResult (RNum f) NumberType))
  /\ (forall b, v = RBool b ->
     fromjson (input :: rest) = Return (mkResult (RBool b) BoolType)).
Proof.
  intros Hd. unfold fromjson. rewrite index_0. cbn [bind]. rewrite Hd.
  repeat split; intros ? ->; reflexivity.
Qed.

(** C5, amended.  [fromjson] fails iff the decoding of the string coercion of
    the input fails or yields null.  In the first case the message carries
    the text and the decoding error; in the second case the message is
    [unknown type <nil> in fromjson], which names the decoded type and not
    the text. *)
Theorem fromjson_failure (input : Val) (rest : list Val) :
  (panics (fromjson (input :: rest)) <->
     (exists err, json_Unmarshal (CoerceString input) = inr err)
     \/ json_Unmarshal (CoerceString input) = inl RNil)
  /\ (forall err, json_Unmarshal (CoerceString input) = inr err ->
        exists msg,
          fromjson (input :: rest) = Panic msg
          /\ GoStrings.Contains msg (CoerceString input) = true
          /\ GoStrings.Contains msg err = true)
  /\ (json_Unmarshal (CoerceString input) = inl RNil ->
        fromjson (input :: rest) = Panic "unknown type <nil> in fromjson").
Proof.
  unfold panics, fromjson. rewrite index_0. cbn [bind].
  destruct (json_Unmarshal (CoerceString input)) as [v|err] eqn:Hd.
  - split; [|split; [discriminate | now intros [= ->]]].
    destruct v; split;
      try (intros [msg F]; discriminate);
      try (intros [[err F] | F]; discriminate).
    + intros _. now right.
    + intros _. eexists. reflexivity.
  - split; [|split; [|discriminate]].
    + split; [intros _; left; now exists err | intros _; eexists; reflexivity].
    + intros err' [= <-]. eexists. split; [reflexivity|]. split.
      * apply Contains_iff.
        now exists "unable to unmarshal `", ("` fromjson: " ++ err).
      * apply Contains_iff.
        exists ("unable to unmarshal `" ++ CoerceString input ++ "` fromjson: "), "".
        now rewrite string_app_empty_r, !string_app_assoc.
Qed.

(** C3, amended.  The descriptor of [join] has the count [-1], so that a
    call of [join] with [n] arguments is accepted iff [1 <= n]: there is no
    upper bound. *)
Theorem join_arity (n : nat) :
  (exists d, lookup "join" functions = Some d
             /\ argsCount d = (-1)%Z
             /\ arityAccepts (argsCount d) n = Some (1 <=? n)%nat)
  /\ (accepted "join" n = true <-> (1 <= n)%nat).
Proof.
  assert (E : arityAccepts (-1) n = Some (1 <=? n)%nat).
  { unfold arityAccepts.
    change (0 <? -1)%Z with false. change (-1 <? 0)%Z with true.
    cbv iota. change (Z.abs (-1)) with 1%Z. f_equal.
    destruct (Nat.leb_spec 1 n); [apply Z.leb_le | apply Z.leb_gt]; lia. }
  split.
  - exists (mkFuncDef (-1) join). split; [reflexivity|].
    split; [reflexivity | exact E].
  - unfold accepted.
    change (lookup "join" functions) with (Some (mkFuncDef (-1) join)).
    cbv iota beta. change (argsCount (mkFuncDef (-1) join)) with (-1)%Z.
    rewrite E. apply Nat.leb_le.
Qed.

End Properties.

(** ** Runs on concrete calls *)

Section Runs.

Import Fixture.

Example startswith_HelloWorld :
  startswith [str "HelloWorld"; str "hello"] = Return (boolResult true).
Proof. reflexivity. Qed.

Example endswith_HelloWorld :
  endswith [str "HelloWorld"; str "WORLD"] = Return (boolResult true).
Proof. reflexivity. Qed.

Example fromjson_then_join :
  (r <- fromjson [str "[1,2,3]"] ;; join [r]) = Return (str "1,2,3").
Proof. reflexivity. Qed.

Example join_of_object_panics :
  join [object []]
  = Panic "interface conversion: interface {} is map[string]interface {}, not []interface {}".
Proof. reflexivity. Qed.

(** C1, on the code.  [contains("HelloWorld", "hello")] has two primitive
    operands, and the lowercase of the first contains the lowercase of the
    second; yet [contains] returns [false], because it compares the coerced
    strings without lowering them. *)
Theorem contains_is_case_sensitive :
  Primitive (str "HelloWorld") = true
  /\ Primitive (str "hello") = true
  /\ GoStrings.Contains (strings_ToLower (CoerceString (str "HelloWorld")))
                        (strings_ToLower (CoerceString (str "hello"))) = true
  /\ contains [str "HelloWorld"; str "hello"] = Return (boolResult false).
Proof.
  split; [reflexivity|]. split; [reflexivity|]. split; reflexivity.
Qed.

(** C2, on the code.  The second operand of [endswith("xArray", [])] is an
    array, which is not primitive; yet [endswith] returns [true], because its
    second test looks at the first operand again and the suffix test runs on
    the string coercion of the array. *)
Theorem endswith_accepts_array_operand :
  Primitive (str "xArray") = true
  /\ Primitive (array []) = false
  /\ endswith [str "xArray"; array []] = Return (boolResult true).
Proof.
  split; [reflexivity|]. split; reflexivity.
Qed.

(** C3, counterexample.  A call of [join] with three arguments is accepted,
    and three is not between one and two. *)
Lemma join_arity_counterexample :
  accepted "join" 3 = true /\ ~ (1 <= 3 <= 2)%nat.
Proof.
  split; [reflexivity | lia].
Qed.

(** C5, counterexample.  [fromjson("null")] decodes to null and fails with a
    message that does not carry the text [null]. *)
Lemma fromjson_null_counterexample :
  json_Unmarshal (CoerceString (str "null")) = inl RNil
  /\ fromjson [str "null"] = Panic "unknown type <nil> in fromjson"
  /\ GoStrings.Contains "unknown type <nil> in fromjson"
                        (CoerceString (str "null")) = false.
Proof.
  split; [reflexivity|]. split; reflexivity.
Qed.

Lemma contains_array_witness :
  Typ (array [RNum 1%Z; RStr "a"]) = ArrayType
  /\ exists r : bool,
       contains [array [RNum 1%Z; RStr "a"]; str "a"] = Return (boolResult r)
       /\ (r = true <->
           Primitive (str "a") = true
           /\ exists s pre v post,
                CoerceSlice (array [RNum 1%Z; RStr "a"]) = Some s
                /\ s = (pre ++ v :: post)%list
                /\ Forall (fun u => Equals (str "a") u = false) pre
                /\ Equals (str "a") v = true).
Proof.
  split; [reflexivity|].
  apply (contains_array (array [RNum 1%Z; RStr "a"]) (str "a")).
  reflexivity.
Defined.

Lemma contains_array_absent_witness :
  Typ hollowArray = ArrayType
  /\ CoerceSlice hollowArray = None
  /\ contains [hollowArray; str "b"] = Return (boolResult false).
Proof.
  split; [reflexivity|]. split; [reflexivity|].
  apply (contains_array_absent hollowArray (str "b"));
    reflexivity.
Defined.

Lemma join_primitive_identity_witness :
  Primitive (str "scalar") = true
  /\ join [str "scalar"; str "-"] = Return (str "scalar").
Proof.
  split; [reflexivity|].
  apply (join_primitive_identity (str "scalar") [str "-"]). reflexivity.
Defined.

Lemma join_array_witness :
  Typ (array [RStr "a"; RStr "b"; RStr "c"]) = ArrayType
  /\ Value (array [RStr "a"; RStr "b"; RStr "c"])
     = RArr [RStr "a"; RStr "b"; RStr "c"]
  /\ join [array [RStr "a"; RStr "b"; RStr "c"]] = Return (str "a,b,c")
  /\ join [array [RStr "a"; RStr "b"; RStr "c"]; str "-"]
     = Return (str "a-b-c").
Proof.
  split; [reflexivity|]. split; [reflexivity|]. split.
  - exact (join_array (array [RStr "a"; RStr "b"; RStr "c"]) []
                      [RStr "a"; RStr "b"; RStr "c"] eq_refl eq_refl).
  - exact (join_array (array [RStr "a"; RStr "b"; RStr "c"]) [str "-"]
                      [RStr "a"; RStr "b"; RStr "c"] eq_refl eq_refl).
Defined.

Lemma fromjson_shapes_witness :
  json_Unmarshal (CoerceString (str "[1,2,3]"))
  = inl (RArr [RNum 1%Z; RNum 2%Z; RNum 3%Z])
  /\ fromjson [str "[1,2,3]"]
     = Return (array [RNum 1%Z; RNum 2%Z; RNum 3%Z]).
Proof.
  assert (D : json_Unmarshal (CoerceString (str "[1,2,3]"))
              = inl (RArr [RNum 1%Z; RNum 2%Z; RNum 3%Z])) by reflexivity.
  split; [exact D|].
  exact (proj1 (fromjson_shapes (str "[1,2,3]") [] _ D) _ eq_refl).
Defined.

End Runs.

(** ** Further properties of the built-ins *)

Section Further.

Context {float64 : Type} `{Coercions float64} `{GoLibrary float64}.

#[local] Abbreviation Val := (EvaluationResult float64).

Lemma index_missing (s : list Val) (i : nat) :
  nth_error s i = None -> index s i = Panic (outOfRange i (List.length s)).
Proof. intros E. unfold index. now rewrite E. Qed.

Lemma Contains_empty (s : string) : GoStrings.Contains s "" = true.
Proof. apply Contains_iff. now exists "", s. Qed.

Lemma Contains_refl (s : string) : GoStrings.Contains s s = true.
Proof.
  apply Contains_iff. exists "", "". now rewrite string_app_empty_r.
Qed.

Lemma HasPrefix_refl (s : string) : GoStrings.HasPrefix s s = true.
Proof. apply HasPrefix_iff. exists "". now rewrite string_app_empty_r. Qed.

Lemma HasSuffix_refl (s : string) : GoStrings.HasSuffix s s = true.
Proof. apply HasSuffix_iff. now exists "". Qed.

(** What [contains] answers on two arguments, branch by branch. *)
Lemma contains_pair (a b : Val) :
  contains [a; b]
  = Return (boolResult
      (if Primitive a
       then Primitive b && GoStrings.Contains (CoerceString a) (CoerceString b)
       else match Typ a with
            | ArrayType =>
                Primitive b
                && match CoerceSlice a with
                   | Some s => existsb (Equals b) s
                   | None => false
                   end
            | _ => false
            end)).
Proof.
  unfold contains. cbn.
  destruct (Primitive a) eqn:Ha; cbn.
  - now destruct (Primitive b).
  - destruct (Typ a); try reflexivity.
    destruct (Primitive b); cbn; [|reflexivity].
    destruct (CoerceSlice a); [apply f_equal, containsLoop_existsb | reflexivity].
Qed.

Lemma startswith_pair (a b : Val) (rest : list Val) :
  startswith (a :: b :: rest)
  = Return (boolResult
      (Primitive a && Primitive b
       && GoStrings.HasPrefix (strings_ToLower (CoerceString a))
                              (strings_ToLower (CoerceString b)))).
Proof.
  unfold startswith. cbn.
  destruct (Primitive a); cbn; [|reflexivity].
  now destruct (Primitive b).
Qed.

Lemma endswith_pair (a b : Val) (rest : list Val) :
  endswith (a :: b :: rest)
  = Return (boolResult
      (Primitive a
       && GoStrings.HasSuffix (strings_ToLower (CoerceString a))
                              (strings_ToLower (CoerceString b)))).
Proof.
  unfold endswith. cbn. now destruct (Primitive a).
Qed.

(** X1.  [contains] checks its own argument count: it panics with
    [contains() requires exactly 2 arguments] iff it is not given exactly two
    arguments, and with two arguments it always returns a Bool value. *)
Theorem contains_argument_count (args : list Val) :
  (contains args = Panic "contains() requires exactly 2 arguments"
   <-> List.length args <> 2)
  /\ ((exists b, contains args = Return (boolResult b))
      <-> List.length args = 2).
Proof.
  destruct args as [|a [|b [|c rest]]];
    try (split; split;
         [ intros _; cbn; lia
         | intros _; reflexivity
         | intros [b0 F]; discriminate
         | cbn; lia ]).
  rewrite contains_pair. split; split.
  - discriminate.
  - cbn. lia.
  - reflexivity.
  - intros _. eexists. reflexivity.
Qed.

(** X2.  A search value typed Object, or typed neither primitive, Object nor
    Array, contains nothing: the answer is [false] for every item. *)
Theorem contains_object_false (search item : Val) :
  Typ search = ObjectType \/ Typ search = AnyType ->
  contains [search; item] = Return (boolResult false).
Proof.
  intros Ht. rewrite contains_pair. unfold Primitive.
  destruct Ht as [-> | ->]; reflexivity.
Qed.

(** X3.  An item that is not primitive is contained in nothing: whatever the
    search value is, the answer is [false]. *)
Theorem contains_item_not_primitive (search item : Val) :
  Primitive item = false ->
  contains [search; item] = Return (boolResult false).
Proof.
  intros Hi. rewrite contains_pair, Hi.
  destruct (Primitive search); [reflexivity|].
  now destruct (Typ search).
Qed.

(** X4.  Every primitive search value contains every primitive item that
    coerces to the empty string. *)
Theorem contains_empty_item (search item : Val) :
  Primitive search = true -> Primitive item = true ->
  CoerceString item = "" ->
  contains [search; item] = Return (boolResult true).
Proof.
  intros Hs Hi He. rewrite contains_pair, Hs, Hi, He.
  now rewrite Contains_empty.
Qed.

(** X5.  [startswith] and [endswith] read their second argument only after
    the first one was found primitive: each of them panics iff it is called
    with no argument, or with a single argument that is primitive. *)
Theorem prefix_suffix_failure (args : list Val) :
  (panics (startswith args)
   <-> args = [] \/ exists a, args = [a] /\ Primitive a = true)
  /\ (panics (endswith args)
      <-> args = [] \/ exists a, args = [a] /\ Primitive a = true).
Proof.
  unfold panics.
  destruct args as [|a [|b rest]].
  - split; (split; [intros _; now left | intros _; eexists; reflexivity]).
  - unfold startswith, endswith. cbn.
    destruct (Primitive a) eqn:Ha; cbn; split; split;
      try (intros _; right; now exists a);
      try (intros _; eexists; reflexivity);
      try (intros [msg F]; discriminate);
      intros [F | (a' & [= <-] & F)]; congruence.
  - rewrite startswith_pair, endswith_pair. split; split;
      try (intros [msg F]; discriminate);
      intros [F | (a' & F & _)]; discriminate.
Qed.

(** X6.  When the first operand is not primitive, [startswith] and
    [endswith] answer [false] whatever follows it, even nothing. *)
Theorem prefix_suffix_first_not_primitive (a : Val) (rest : list Val) :
  Primitive a = false ->
  startswith (a :: rest) = Return (boolResult false)
  /\ endswith (a :: rest) = Return (boolResult false).
Proof.
  intros Ha. unfold startswith, endswith. rewrite index_0. cbn [bind].
  now rewrite Ha.
Qed.

(** What [join] does once its first argument is known. *)
Lemma join_cons (a : Val) (rest : list Val) :
  join (a :: rest)
  = if Primitive a then Return a
    else match Value a with
         | RArr ar =>
             Return (mkResult
                       (RStr (String.concat
                                match rest with
                                | [] => ","
                                | sep :: _ => CoerceString sep
                                end
                                (map (fun x => CoerceString
                                                 (mkResult x (getExprType x)))
                                     ar)))
                       StringType)
         | v => Panic ("interface conversion: interface {} is "
                       ++ goTypeName v ++ ", not []interface {}")
         end.
Proof.
  destruct (Primitive a) eqn:Ha.
  - unfold join. rewrite index_0. cbn [bind]. now rewrite Ha.
  - destruct (Value a) as [| b | f | s | ar | entries] eqn:Hv;
      try (unfold join; rewrite index_0; cbn [bind]; rewrite Ha, Hv;
           now destruct rest).
    now apply join_not_primitive.
Qed.

(** X7.  [join] panics iff it is called with no argument, or its first
    argument is not primitive and does not hold a sequence; the separator
    never makes it fail. *)
Theorem join_failure (args : list Val) :
  panics (join args)
  <-> args = []
      \/ exists a rest, args = a :: rest
                        /\ Primitive a = false
                        /\ forall ar, Value a <> RArr ar.
Proof.
  unfold panics. destruct args as [|a rest].
  - split; [intros _; now left | intros _; eexists; reflexivity].
  - rewrite join_cons. split.
    + intros [msg F]. right. exists a, rest.
      destruct (Primitive a); [discriminate|].
      split; [reflexivity|]. split; [reflexivity|].
      intros ar E. rewrite E in F. discriminate.
    + intros [F | (a' & rest' & [= <- <-] & Ha & Hv)]; [discriminate|].
      rewrite Ha.
      destruct (Value a) as [| b | f | s | ar | entries];
        try (eexists; reflexivity).
      now destruct (Hv ar).
Qed.

(** X8.  When the first argument of [join] is neither primitive nor a
    sequence, the panic is the failed type assertion, and its message names
    the dynamic type of the payload. *)
Theorem join_type_assertion (a : Val) (rest : list Val) :
  Primitive a = false ->
  (forall ar, Value a <> RArr ar) ->
  join (a :: rest)
  = Panic ("interface conversion: interface {} is "
           ++ goTypeName (Value a) ++ ", not []interface {}").
Proof.
  intros Ha Hv. rewrite join_cons, Ha.
  destruct (Value a) as [| b | f | s | ar | entries]; try reflexivity.
  now destruct (Hv ar).
Qed.

(** X9.  Whatever [contains], [startswith] and [endswith] return is a Bool
    value holding a boolean: the type tag classifies the payload. *)
Theorem boolean_results (args : list Val) (r : Val) :
  contains args = Return r \/ startswith args = Return r
  \/ endswith args = Return r ->
  exists b, r = boolResult b.
Proof.
  intros [E | [E | E]].
  - destruct args as [|a [|b [|c rest]]]; try discriminate.
    rewrite contains_pair in E. injection E as <-. eexists. reflexivity.
  - destruct args as [|a [|b rest]]; try discriminate.
    + unfold startswith in E. cbn in E.
      destruct (Primitive a); [discriminate|].
      injection E as <-. now exists false.
    + rewrite startswith_pair in E. injection E as <-. eexists. reflexivity.
  - destruct args as [|a [|b rest]]; try discriminate.
    + unfold endswith in E. cbn in E.
      destruct (Primitive a); [discriminate|].
      injection E as <-. now exists false.
    + rewrite endswith_pair in E. injection E as <-. eexists. reflexivity.
Qed.

(** X10.  What [join] returns is either its first argument itself, when that
    one is primitive, or a String value holding a string. *)
Theorem join_result (args : list Val) (r : Val) :
  join args = Return r ->
  exists a rest,
    args = a :: rest
    /\ ((Primitive a = true /\ r = a)
        \/ (Primitive a = false /\ exists s, r = mkResult (RStr s) StringType)).
Proof.
  destruct args as [|a rest]; [discriminate|].
  rewrite join_cons. intros E. exists a, rest. split; [reflexivity|].
  destruct (Primitive a).
  - left. now injection E as <-.
  - right. split; [reflexivity|].
    destruct (Value a); try discriminate.
    injection E as <-. eexists. reflexivity.
Qed.

(** The registry, key by key. *)
Lemma lookup_functions (name : string) :
  lookup name functions
  = if "contains" =? name then Some (mkFuncDef 2 contains)
    else if "startswith" =? name then Some (mkFuncDef 2 startswith)
    else if "endswith" =? name then Some (mkFuncDef 2 endswith)
    else if "join" =? name then Some (mkFuncDef (-1) join)
    else if "fromjson" =? name then Some (mkFuncDef 1 fromjson)
    else None.
Proof. reflexivity. Qed.

Ltac registry_cases name :=
  rewrite (lookup_functions name);
  destruct (String.eqb_spec "contains" name) as [<- | Hc];
  [| destruct (String.eqb_spec "startswith" name) as [<- | Hs];
     [| destruct (String.eqb_spec "endswith" name) as [<- | He];
        [| destruct (String.eqb_spec "join" name) as [<- | Hj];
           [| destruct (String.eqb_spec "fromjson" name) as [<- | Hf] ]]]].

Lemma arityAccepts_exact (c : positive) (n : nat) :
  arityAccepts (Z.pos c) n = Some (n =? Pos.to_nat c)%nat.
Proof.
  unfold arityAccepts. change (0 <? Z.pos c)%Z with true. cbv iota. f_equal.
  destruct (Nat.eqb_spec n (Pos.to_nat c)) as [E | E];
    [apply Z.eqb_eq | apply Z.eqb_neq]; lia.
Qed.

Lemma arityAccepts_at_least (c : positive) (n : nat) :
  arityAccepts (Z.neg c) n = Some (Pos.to_nat c <=? n)%nat.
Proof.
  unfold arityAccepts. change (0 <? Z.neg c)%Z with false.
  change (Z.neg c <? 0)%Z with true. cbv iota. f_equal.
  destruct (Nat.leb_spec (Pos.to_nat c) n);
    [apply Z.leb_le | apply Z.leb_gt]; lia.
Qed.

(** X11.  The registry resolves the five names [contains], [startswith],
    [endswith], [join] and [fromjson], spelled exactly so, and no other
    name. *)
Theorem registry_names (name : string) :
  (exists d, lookup name functions = Some d)
  <-> In name ["contains"; "startswith"; "endswith"; "join"; "fromjson"].
Proof.
  registry_cases name; cbn [In];
    try (split; [intros _; tauto | intros _; eexists; reflexivity]).
  split; [intros [d F]; discriminate | intuition congruence].
Qed.

(** X12.  Under the rule of [argsCount] (a positive count is matched exactly,
    a negative count is a minimum), a call is accepted iff it is a call of
    [contains], [startswith] or [endswith] with two arguments, of [fromjson]
    with one argument, or of [join] with at least one argument. *)
Theorem accepted_calls (name : string) (n : nat) :
  accepted name n = true
  <-> (In name ["contains"; "startswith"; "endswith"] /\ n = 2)
      \/ (name = "fromjson" /\ n = 1)
      \/ (name = "join" /\ (1 <= n)%nat).
Proof.
  unfold accepted. registry_cases name; cbv iota beta;
    unfold argsCount;
    rewrite ?arityAccepts_exact, ?arityAccepts_at_least;
    change (Pos.to_nat 2) with 2; change (Pos.to_nat 1) with 1;
    rewrite ?Nat.eqb_eq, ?Nat.leb_le; cbn [In].
  - split; [tauto|]. intros [[_ E] | [[F _] | [F _]]]; [exact E | discriminate..].
  - split; [tauto|]. intros [[_ E] | [[F _] | [F _]]]; [exact E | discriminate..].
  - split; [tauto|]. intros [[_ E] | [[F _] | [F _]]]; [exact E | discriminate..].
  - split; [tauto|]. intros [[[F|[F|[F|[]]]] _] | [[F _] | [_ E]]];
      [discriminate.. | exact E].
  - split; [tauto|]. intros [[[F|[F|[F|[]]]] _] | [[_ E] | [F _]]];
      [discriminate.. | exact E | discriminate].
  - split; [discriminate|]. intuition congruence.
Qed.

(** X13.  The argument counts keep the built-ins inside their argument
    slice: a call that the registry resolves and whose count is accepted
    never panics with an index out of range. *)
Theorem accepted_call_in_range (name : string) (d : funcDef) (args : list Val)
    (i n : nat) :
  lookup name functions = Some d ->
  arityAccepts (argsCount d) (List.length args) = Some true ->
  call d args <> Panic (outOfRange i n).
Proof.
  registry_cases name; intros [= <-]; unfold argsCount, call;
    rewrite ?arityAccepts_exact, ?arityAccepts_at_least;
    change (Pos.to_nat 2) with 2; change (Pos.to_nat 1) with 1;
    intros [= Hn]; try discriminate;
    try apply Nat.eqb_eq in Hn; try apply Nat.leb_le in Hn.
  - destruct args as [|a [|b [|c rest]]]; try discriminate.
    rewrite contains_pair. discriminate.
  - destruct args as [|a [|b [|c rest]]]; try discriminate.
    rewrite startswith_pair. discriminate.
  - destruct args as [|a [|b [|c rest]]]; try discriminate.
    rewrite endswith_pair. discriminate.
  - destruct args as [|a rest]; [cbn in Hn; lia|].
    rewrite join_cons. destruct (Primitive a); [discriminate|].
    destruct (Value a); discriminate.
  - destruct args as [|a [|b rest]]; try discriminate.
    unfold fromjson. rewrite index_0. cbn [bind].
    destruct (json_Unmarshal (CoerceString a)) as [[]|err]; discriminate.
Qed.

(** X14.  [join] after [fromjson], on what the text decodes to: a decoded
    array is joined with [","] from the coercions of its elements, a decoded
    string, number or boolean comes back as [fromjson] returned it, and a
    decoded object makes [join] panic on its type assertion. *)
Theorem join_after_fromjson (input : Val) (v : raw float64) :
  json_Unmarshal (CoerceString input) = inl v ->
  (forall elems, v = RArr elems ->
     (r <- fromjson [input] ;; join [r])
     = Return (mkResult
                 (RStr (String.concat ","
                          (map (fun x => CoerceString (mkResult x (getExprType x)))
                               elems)))
                 StringType))
  /\ (forall s, v = RStr s ->
        (r <- fromjson [input] ;; join [r])
        = Return (mkResult (RStr s) StringType))
  /\ (forall f, v = RNum f ->
        (r <- fromjson [input] ;; join [r])
        = Return (mkResult (RNum f) NumberType))
  /\ (forall b, v = RBool b ->
        (r <- fromjson [input] ;; join [r])
        = Return (mkResult (RBool b) BoolType))
  /\ (forall entries, v = RObj entries ->
        (r <- fromjson [input] ;; join [r])
        = Panic "interface conversion: interface {} is map[string]interface {}, not []interface {}").
Proof.
  intros Hd. unfold fromjson at 1 2 3 4 5. rewrite index_0. cbn [bind].
  rewrite Hd.
  repeat split; intros ? ->; cbn [bind]; rewrite join_cons; reflexivity.
Qed.

(** X15.  Every primitive value starts with itself and ends with itself. *)
Theorem prefix_suffix_reflexive (a : Val) :
  Primitive a = true ->
  startswith [a; a] = Return (boolResult true)
  /\ endswith [a; a] = Return (boolResult true).
Proof.
  intros Ha. rewrite startswith_pair, endswith_pair, Ha.
  now rewrite HasPrefix_refl, HasSuffix_refl.
Qed.

(** X16.  On primitive operands whose string coercions are already in lower
    case, whatever [startswith] or [endswith] accepts, [contains] accepts
    too. *)
Theorem prefix_or_suffix_is_contained (a b : Val) :
  Primitive a = true -> Primitive b = true ->
  strings_ToLower (CoerceString a) = CoerceString a ->
  strings_ToLower (CoerceString b) = CoerceString b ->
  startswith [a; b] = Return (boolResult true)
  \/ endswith [a; b] = Return (boolResult true) ->
  contains [a; b] = Return (boolResult true).
Proof.
  intros Ha Hb La Lb Hor.
  rewrite startswith_pair, endswith_pair, Ha, Hb, La, Lb in Hor.
  rewrite contains_pair, Ha, Hb. cbn [andb] in *.
  do 2 f_equal. apply Contains_iff.
  destruct Hor as [[= E] | [= E]].
  - apply HasPrefix_iff in E as [t E]. now exists "", t.
  - apply HasSuffix_iff in E as [t E]. exists t, "".
    now rewrite string_app_empty_r.
Qed.

Lemma string_app_same_length (p q t : string) :
  p = q ++ t -> (String.length p <= String.length q)%nat -> p = q.
Proof.
  intros -> Hlen. rewrite string_app_length in Hlen.
  destruct t; [apply string_app_empty_r | cbn in Hlen; lia].
Qed.

(** X17.  Two values each of which starts with the other have the same
    string coercion up to case. *)
Theorem startswith_antisymmetric (a b : Val) :
  startswith [a; b] = Return (boolResult true) ->
  startswith [b; a] = Return (boolResult true) ->
  strings_ToLower (CoerceString a) = strings_ToLower (CoerceString b).
Proof.
  rewrite !startswith_pair. intros [= Eab] [= Eba].
  apply andb_true_iff in Eab as [_ Eab], Eba as [_ Eba].
  apply HasPrefix_iff in Eab as [t Eab], Eba as [t' Eba].
  apply (string_app_same_length _ _ t Eab).
  rewrite Eba, string_app_length. lia.
Qed.

Lemma existsb_Permutation {A : Type} (f : A -> bool) (s s' : list A) :
  Permutation s s' -> existsb f s = existsb f s'.
Proof.
  induction 1 as [| x s s' _ IH | x y s | s s' s'' _ IH1 _ IH2]; cbn.
  - reflexivity.
  - now rewrite IH.
  - now rewrite !orb_assoc, (orb_comm (f y)).
  - now rewrite IH1.
Qed.

(** X18.  Although the loop of [contains] stops at the first match, the
    answer on an array does not depend on the order of its elements. *)
Theorem contains_order_irrelevant (x y item : Val) (s s' : list Val) :
  Typ x = ArrayType -> Typ y = ArrayType ->
  CoerceSlice x = Some s -> CoerceSlice y = Some s' ->
  Permutation s s' ->
  contains [x; item] = contains [y; item].
Proof.
  intros Hx Hy Hs Hs' Hp. rewrite !contains_pair.
  assert (Px : Primitive x = false) by (unfold Primitive; now rewrite Hx).
  assert (Py : Primitive y = false) by (unfold Primitive; now rewrite Hy).
  rewrite Px, Py, Hx, Hy, Hs, Hs'.
  now rewrite (existsb_Permutation _ _ _ Hp).
Qed.

End Further.

(** ** Runs of the further properties *)

Section FurtherRuns.

Import Fixture.

Lemma contains_object_false_witness :
  (Typ (object []) = ObjectType \/ Typ (object []) = AnyType)
  /\ contains [object []; str "a"] = Return (boolResult false).
Proof.
  split; [now left|].
  apply (contains_object_false (object []) (str "a")). now left.
Defined.

Lemma contains_item_not_primitive_witness :
  Primitive (array [RStr "a"]) = false
  /\ contains [array [RStr "a"]; array [RStr "a"]] = Return (boolResult false).
Proof.
  split; [reflexivity|].
  apply (contains_item_not_primitive (array [RStr "a"]) (array [RStr "a"])).
  reflexivity.
Defined.

Lemma contains_empty_item_witness :
  Primitive (str "abc") = true /\ Primitive null = true
  /\ CoerceString null = ""
  /\ contains [str "abc"; null] = Return (boolResult true).
Proof.
  split; [reflexivity|]. split; [reflexivity|]. split; [reflexivity|].
  apply (contains_empty_item (str "abc") null); reflexivity.
Defined.

Lemma prefix_suffix_first_not_primitive_witness :
  Primitive (array []) = false
  /\ startswith [array []] = Return (boolResult false)
  /\ endswith [array []] = Return (boolResult false).
Proof.
  split; [reflexivity|].
  apply (prefix_suffix_first_not_primitive (array []) []). reflexivity.
Defined.

Lemma join_type_assertion_witness :
  Primitive (object []) = false
  /\ (forall ar, Value (object []) <> RArr ar)
  /\ join [object []; str "-"]
     = Panic ("interface conversion: interface {} is "
              ++ goTypeName (Value (object [])) ++ ", not []interface {}").
Proof.
  split; [reflexivity|]. split; [discriminate|].
  apply (join_type_assertion (object []) [str "-"]);
    [reflexivity | discriminate].
Defined.

Lemma boolean_results_witness :
  (contains [str "abc"; str "b"] = Return (boolResult true)
   \/ startswith [str "abc"; str "b"] = Return (boolResult true)
   \/ endswith [str "abc"; str "b"] = Return (boolResult true))
  /\ exists b, boolResult true = boolResult (float64 := num) b.
Proof.
  split; [now left|].
  apply (boolean_results [str "abc"; str "b"] (boolResult true)). now left.
Defined.

Lemma join_result_witness :
  join [number 7; str "-"] = Return (number 7)
  /\ exists a rest,
       [number 7; str "-"] = a :: rest
       /\ ((Primitive a = true /\ number 7 = a)
           \/ (Primitive a = false
               /\ exists s, number 7 = mkResult (RStr s) StringType)).
Proof.
  split; [reflexivity|].
  apply (join_result [number 7; str "-"] (number 7)). reflexivity.
Defined.

Lemma accepted_call_in_range_witness :
  lookup "join" functions = Some (mkFuncDef (-1) join)
  /\ arityAccepts (argsCount (mkFuncDef (-1) join)) (List.length [object []])
     = Some true
  /\ call (mkFuncDef (-1) join) [object []] <> Panic (outOfRange 1 1).
Proof.
  split; [reflexivity|]. split; [reflexivity|].
  apply (accepted_call_in_range "join" (mkFuncDef (-1) join) [object []] 1 1);
    reflexivity.
Defined.

Lemma join_after_fromjson_witness :
  json_Unmarshal (CoerceString (str "[1,2,3]"))
  = inl (RArr [RNum 1%Z; RNum 2%Z; RNum 3%Z])
  /\ (r <- fromjson [str "[1,2,3]"] ;; join [r]) = Return (str "1,2,3").
Proof.
  assert (D : json_Unmarshal (CoerceString (str "[1,2,3]"))
              = inl (RArr [RNum 1%Z; RNum 2%Z; RNum 3%Z])) by reflexivity.
  split; [exact D|].
  exact (proj1 (join_after_fromjson (str "[1,2,3]") _ D) _ eq_refl).
Defined.

Lemma prefix_suffix_reflexive_witness :
  Primitive (str "Hello") = true
  /\ startswith [str "Hello"; str "Hello"] = Return (boolResult true)
  /\ endswith [str "Hello"; str "Hello"] = Return (boolResult true).
Proof.
  split; [reflexivity|].
  apply (prefix_suffix_reflexive (str "Hello")). reflexivity.
Defined.

Lemma prefix_or_suffix_is_contained_witness :
  Primitive (str "helloworld") = true /\ Primitive (str "world") = true
  /\ strings_ToLower (CoerceString (str "helloworld"))
     = CoerceString (str "helloworld")
  /\ strings_ToLower (CoerceString (str "world")) = CoerceString (str "world")
  /\ (startswith [str "helloworld"; str "world"] = Return (boolResult true)
      \/ endswith [str "helloworld"; str "world"] = Return (boolResult true))
  /\ contains [str "helloworld"; str "world"] = Return (boolResult true).
Proof.
  split; [reflexivity|]. split; [reflexivity|]. split; [reflexivity|].
  split; [reflexivity|]. split; [now right|].
  apply (prefix_or_suffix_is_contained (str "helloworld") (str "world"));
    try reflexivity.
  now right.
Defined.

Lemma startswith_antisymmetric_witness :
  startswith [str "Hello"; str "hELLO"] = Return (boolResult true)
  /\ startswith [str "hELLO"; str "Hello"] = Return (boolResult true)
  /\ strings_ToLower (CoerceString (str "Hello"))
     = strings_ToLower (CoerceString (str "hELLO")).
Proof.
  split; [reflexivity|]. split; [reflexivity|].
  apply (startswith_antisymmetric (str "Hello") (str "hELLO")); reflexivity.
Defined.

Lemma contains_order_irrelevant_witness :
  Typ (array [RNum 1%Z; RStr "a"]) = ArrayType
  /\ Typ (array [RStr "a"; RNum 1%Z]) = ArrayType
  /\ CoerceSlice (array [RNum 1%Z; RStr "a"]) = Some [number 1; str "a"]
  /\ CoerceSlice (array [RStr "a"; RNum 1%Z]) = Some [str "a"; number 1]
  /\ Permutation [number 1; str "a"] [str "a"; number 1]
  /\ contains [array [RNum 1%Z; RStr "a"]; str "a"]
     = contains [array [RStr "a"; RNum 1%Z]; str "a"].
Proof.
  split; [reflexivity|]. split; [reflexivity|]. split; [reflexivity|].
  split; [reflexivity|]. split; [apply perm_swap|].
  apply (contains_order_irrelevant
           (array [RNum 1%Z; RStr "a"]) (array [RStr "a"; RNum 1%Z])
           (str "a") [number 1; str "a"] [str "a"; number 1]);
    try reflexivity.
  apply perm_swap.
Defined.

End FurtherRuns.
